(** * entities SDK: the file client ([src/entities/clients/files.py])

    A shallow embedding of [FileClient], the thin HTTP wrapper around the
    file-storage service, and the properties of its error translation,
    authentication header, multipart upload and resource handling.

    The client is effectful code: every method logs, sends one HTTP request,
    may open a local file, and either returns a value or raises.  It is
    embedded in a small monad [IO] that threads the world (local files, open
    handles, the server), carries Python exceptions as the left summand of
    the result, and emits the observable events of a call (log records,
    requests, handle acquisition and release, decoding and validation
    attempts) in chronological order. *)

From Stdlib Require Import Strings.String Strings.Ascii Strings.Byte List ZArith Bool Lia.
From Stdlib Require Import Floats.SpecFloat.
From ExtLib Require Import Structures.Monad Structures.MonadExc.
Import ListNotations.
Import MonadNotation.
Local Open Scope string_scope.
Local Open Scope monad_scope.
Set Warnings "-register-all".

(** ** Data *)

(** The Python value [json.loads] produces: [None], [bool], [int], [float],
    [str], [list] and [dict].  A [dict] is kept as its items in insertion
    order; [dict_lookup] reads it. *)
Inductive json : Type :=
| JNull
| JBool (b : bool)
| JInt (n : Z)
| JFloat (f : spec_float)
| JString (s : string)
| JArray (items : list json)
| JObject (items : list (string * json)).

Fixpoint dict_lookup {V : Type} (key : string) (items : list (string * V)) : option V :=
  match items with
  | [] => None
  | (k, v) :: rest => if String.eqb k key then Some v else dict_lookup key rest
  end.

(** [type(x).__name__], as it appears in the message of an [AttributeError]. *)
Definition type_name (x : json) : string :=
  match x with
  | JNull => "NoneType"
  | JBool _ => "bool"
  | JInt _ => "int"
  | JFloat _ => "float"
  | JString _ => "str"
  | JArray _ => "list"
  | JObject _ => "dict"
  end.

Inductive Method := GET | POST | DELETE.

(** One part of the [files=] argument: [(filename, file_object, mime_type)],
    with the bytes the transport reads from the file object. *)
Record FilePart := {
  fp_filename : string;
  fp_content : list byte;
  fp_content_type : string
}.

(** A request as the client hands it to the transport: the session's base URL
    and headers, and the per-call method, path, form fields and file parts.
    The headers the transport adds by itself are not part of it. *)
Record Request := {
  req_method : Method;
  req_base_url : string;
  req_url : string;
  req_headers : list (string * string);
  req_data : list (string * string);
  req_files : list (string * FilePart)
}.

Record Response := {
  status_code : Z;
  reason_phrase : string;
  content : list byte
}.

(** The exceptions that travel through the client. *)
Inductive Exn :=
| ValidationError (str_ : string) (json_ : string)
    (* pydantic.ValidationError, with str(e) and e.json() *)
| ValueError (msg : string)
| HTTPStatusError (msg : string) (response : Response)
| RequestError (msg : string)          (* httpx.RequestError: no response *)
| JSONDecodeError (msg : string)
| AttributeError (msg : string)
| OSError (msg : string).

(** [str(e)] *)
Definition exn_str (e : Exn) : string :=
  match e with
  | ValidationError s _ => s
  | ValueError m => m
  | HTTPStatusError m _ => m
  | RequestError m => m
  | JSONDecodeError m => m
  | AttributeError m => m
  | OSError m => m
  end.

(** The three failure classes of the client's contract: a response body of
    the wrong shape (the model's error, which the validating methods
    re-raise as a [ValueError] of their own), an HTTP status failure, and
    everything else (no response, a body that is not JSON, a body without
    the method that is called on it, a local file that cannot be opened).
    In Python [JSONDecodeError] derives from [ValueError]; the classes here
    are the exact classes of the exceptions. *)
Inductive ErrorKind := KValidation | KTransport | KUnexpected.

Definition error_kind (e : Exn) : ErrorKind :=
  match e with
  | ValidationError _ _ | ValueError _ => KValidation
  | HTTPStatusError _ _ => KTransport
  | RequestError _ | JSONDecodeError _ | AttributeError _ | OSError _ => KUnexpected
  end.

Inductive Level := INFO | ERROR.

(** A log record keeps the format and the argument objects, as the logging
    call receives them. *)
Inductive Event :=
| EvLog (lvl : Level) (fmt : string) (args : list json)
| EvSend (r : Request)
| EvOpen (handle : nat) (path : string)
| EvClose (handle : nat)
| EvDecode (body : list byte)          (* response.json() *)
| EvValidate (data : json).            (* FileResponse.model_validate *)

(** ** The world and the monad *)

(** What a call can observe and change outside the client: the local file
    system, the file handles currently open, and the server's answer to a
    request (a response with any status, or a failure of the transport). *)
Record World := {
  w_files : string -> option (list byte);
  w_open : list nat;
  w_server : Request -> Exn + Response
}.

Record Run (A : Type) := mkRun {
  result : Exn + A;
  world : World;
  events : list Event
}.
Arguments mkRun {A} _ _ _.
Arguments result {A} _.
Arguments world {A} _.
Arguments events {A} _.

Definition IO (A : Type) : Type := World -> Run A.

Definition io_ret {A} (a : A) : IO A := fun w => mkRun (inr a) w [].

(** The events of [r], after [evs]. *)
Definition after {A} (evs : list Event) (r : Run A) : Run A :=
  match r with
  | mkRun res w evs' => mkRun res w (evs ++ evs')
  end.

Definition io_bind {A B} (m : IO A) (k : A -> IO B) : IO B :=
  fun w =>
    match m w with
    | mkRun (inl e) w1 evs => mkRun (inl e) w1 evs
    | mkRun (inr a) w1 evs => after evs (k a w1)
    end.

Definition io_raise {A} (e : Exn) : IO A := fun w => mkRun (inl e) w [].

(** [try: m  except ... as e: h e] *)
Definition io_catch {A} (m : IO A) (h : Exn -> IO A) : IO A :=
  fun w =>
    match m w with
    | mkRun (inl e) w1 evs => after evs (h e w1)
    | mkRun (inr a) w1 evs => mkRun (inr a) w1 evs
    end.

#[global] Instance Monad_IO : Monad IO :=
  {| ret := @io_ret; bind := @io_bind |}.

#[global] Instance Exc_IO : MonadExc Exn IO :=
  {| raise := @io_raise; catch := @io_catch |}.

Definition emit (ev : Event) : IO unit := fun w => mkRun (inr tt) w [ev].

Definition log_info (fmt : string) (args : list json) : IO unit :=
  emit (EvLog INFO fmt args).

Definition log_error (fmt : string) (args : list json) : IO unit :=
  emit (EvLog ERROR fmt args).

(** ** Collaborators outside the repository

    The response model ([FileResponse] of the shared validation package),
    the MIME table, the JSON decoder and the wording of the transport's
    status error are not defined by this repository; the client is
    parametrised by them. *)
Class Externals := {
  FileResponse : Type;
  (** [validated_response.id] *)
  fr_id : FileResponse -> string;
  (** [FileResponse.model_validate]: the model, or [(str(e), e.json())] of
      the [ValidationError] it raises *)
  model_validate : json -> (string * string) + FileResponse;
  (** [mimetypes.guess_type]: [(type, encoding)] *)
  guess_type : string -> option string * option string;
  (** [json.loads] on the body: the value, or the decoder's message *)
  json_loads : list byte -> string + json;
  (** the message of the [HTTPStatusError] built for a response *)
  status_message : Response -> string
}.

(** ** Library calls made by the client *)

Definition contains_slash (s : string) : bool :=
  existsb (Ascii.eqb "/"%char) (list_ascii_of_string s).

(** [os.path.basename] (POSIX): what follows the last slash. *)
Fixpoint basename (p : string) : string :=
  match p with
  | EmptyString => EmptyString
  | String c rest =>
      if contains_slash rest then basename rest
      else if Ascii.eqb c "/"%char then rest else p
  end.

(** [x or default] on an optional string: [None] and [''] are falsy. *)
Definition or_default (x : option string) (default : string) : string :=
  match x with
  | Some s => if String.eqb s "" then default else s
  | None => default
  end.

(** [io.BytesIO]: a buffer and a position. *)
Record BytesIO := {
  buffer : list byte;
  position : nat
}.

(** [io.BytesIO(initial_bytes)] *)
Definition BytesIO_new (initial_bytes : list byte) : BytesIO :=
  {| buffer := initial_bytes; position := 0 |}.

(** [b.read()]: everything from the position to the end; the position moves
    to the end. *)
Definition BytesIO_read (b : BytesIO) : list byte * BytesIO :=
  (skipn (position b) (buffer b),
   {| buffer := buffer b; position := Nat.max (position b) (length (buffer b)) |}).

Definition BytesIO_tell (b : BytesIO) : nat := position b.

Definition BytesIO_seek (b : BytesIO) (offset : nat) : BytesIO :=
  {| buffer := buffer b; position := offset |}.

Definition BytesIO_seekable (b : BytesIO) : bool := true.

(** [httpx.Client]: the session configuration given at construction. *)
Record Client := {
  client_base_url : string;
  client_headers : list (string * string)
}.

Definition build_request (c : Client) (m : Method) (url : string)
    (data : list (string * string)) (files : list (string * FilePart)) : Request :=
  {| req_method := m;
     req_base_url := client_base_url c;
     req_url := url;
     req_headers := client_headers c;
     req_data := data;
     req_files := files |}.

(** [client.request]: one outbound request; the answer is the server's. *)
Definition send (c : Client) (m : Method) (url : string)
    (data : list (string * string)) (files : list (string * FilePart)) : IO Response :=
  fun w =>
    let req := build_request c m url data files in
    mkRun (w_server w req) w [EvSend req].

Definition client_get (c : Client) (url : string) : IO Response :=
  send c GET url [] [].

Definition client_delete (c : Client) (url : string) : IO Response :=
  send c DELETE url [] [].

Definition client_post (c : Client) (url : string)
    (data : list (string * string)) (files : list (string * FilePart)) : IO Response :=
  send c POST url data files.

(** [response.is_success] *)
Definition is_success (r : Response) : bool :=
  (200 <=? status_code r)%Z && (status_code r <=? 299)%Z.

Section WithExternals.
Context `{Ext : Externals}.

(** [response.raise_for_status()] *)
Definition raise_for_status (r : Response) : IO unit :=
  if is_success r then ret tt
  else raise (HTTPStatusError (status_message r) r).

(** [response.json()] *)
Definition response_json (r : Response) : IO json :=
  emit (EvDecode (content r)) ;;
  match json_loads (content r) with
  | inr v => ret v
  | inl msg => raise (JSONDecodeError msg)
  end.

(** [ent_validator.FileResponse.model_validate(file_data)] *)
Definition FileResponse_model_validate (file_data : json) : IO FileResponse :=
  emit (EvValidate file_data) ;;
  match model_validate file_data with
  | inr v => ret v
  | inl (s, j) => raise (ValidationError s j)
  end.

(** [data.get(key)]: only a [dict] has the method. *)
Definition py_get (data : json) (key : string) : IO json :=
  match data with
  | JObject items =>
      ret (match dict_lookup key items with Some v => v | None => JNull end)
  | _ => raise (AttributeError
                  ("'" ++ type_name data ++ "' object has no attribute 'get'"))
  end.

(** The handle [open] hands out: fresh with respect to the open ones. *)
Definition fresh_handle (open : list nat) : nat := S (list_max open).

Definition release (h : nat) (open : list nat) : list nat :=
  remove Nat.eq_dec h open.

(** [with open(path, 'rb') as file_object: body]: [open] raises when the
    file is missing; otherwise the handle is closed when the block is left,
    by return or by exception, and the exception goes on. *)
Definition with_open {A} (path : string) (body : list byte -> IO A) : IO A :=
  fun w =>
    match w_files w path with
    | None =>
        mkRun (inl (OSError ("[Errno 2] No such file or directory: '" ++ path ++ "'")))
              w []
    | Some bytes =>
        let h := fresh_handle (w_open w) in
        let w1 := {| w_files := w_files w; w_open := h :: w_open w;
                     w_server := w_server w |} in
        match body bytes w1 with
        | mkRun res w2 evs =>
            mkRun res
                  {| w_files := w_files w2; w_open := release h (w_open w2);
                     w_server := w_server w2 |}
                  (EvOpen h path :: evs ++ [EvClose h])
        end
    end.

(** ** The client *)

Record FileClient := {
  base_url : string;
  api_key : option string;
  client : Client
}.

(** Truth value of an [Optional[str]]: [None] and [''] are falsy. *)
Definition truthy (x : option string) : bool :=
  match x with
  | Some s => negb (String.eqb s "")
  | None => false
  end.

(** [f"{x}"] of an [Optional[str]] *)
Definition format_str (x : option string) : string :=
  match x with Some s => s | None => "None" end.

(** [{"Authorization": f"Bearer {self.api_key}"} if self.api_key else {}] *)
Definition auth_headers (api_key : option string) : list (string * string) :=
  if truthy api_key
  then [("Authorization", "Bearer " ++ format_str api_key)]
  else [].

(** [FileClient.__init__] *)
Definition FileClient_init (base_url : string) (api_key : option string) : IO FileClient :=
  let self := {| base_url := base_url;
                 api_key := api_key;
                 client := {| client_base_url := base_url;
                              client_headers := auth_headers api_key |} |} in
  log_info "FileClient initialized with base_url: %s" [JString base_url] ;;
  ret self.

Definition Metadata := option (list (string * json)).

(** The [except] clauses shared by the two uploads and by [retrieve_file];
    [what] is the end of the two log messages. *)
Definition validated_handlers {A} (what : string) (e : Exn) : IO A :=
  match e with
  | ValidationError s j =>
      log_error "Validation error: %s" [JString j] ;;
      raise (ValueError ("Validation error: " ++ s))
  | HTTPStatusError _ _ =>
      log_error ("HTTP error occurred while " ++ what ++ ": %s") [JString (exn_str e)] ;;
      raise e
  | _ =>
      log_error ("An error occurred while " ++ what ++ ": %s") [JString (exn_str e)] ;;
      raise e
  end.

(** The [except] clauses of the other methods, with their two messages. *)
Definition plain_handlers {A} (http_msg other_msg : string) (e : Exn) : IO A :=
  match e with
  | HTTPStatusError _ _ => log_error http_msg [JString (exn_str e)] ;; raise e
  | _ => log_error other_msg [JString (exn_str e)] ;; raise e
  end.

Definition upload_file (self : FileClient) (file_path user_id purpose : string)
    (metadata : Metadata) : IO FileResponse :=
  let filename := basename file_path in
  let mime_type := or_default (fst (guess_type file_path)) "application/octet-stream" in
  log_info "Uploading file: %s with purpose: %s for user: %s"
           [JString file_path; JString purpose; JString user_id] ;;
  catch
    (with_open file_path (fun file_object =>
       let form_data := [("purpose", purpose); ("user_id", user_id)] in
       let files := [("file", {| fp_filename := filename;
                                 fp_content := file_object;
                                 fp_content_type := mime_type |})] in
       response <- client_post (client self) "/v1/uploads" form_data files ;;
       raise_for_status response ;;
       file_data <- response_json response ;;
       validated_response <- FileResponse_model_validate file_data ;;
       log_info "File uploaded successfully with ID: %s" [JString (fr_id validated_response)] ;;
       ret validated_response))
    (validated_handlers "uploading file").

(** [file_object] is the caller's stream, as the bytes the transport reads
    from it. *)
Definition upload_file_object (self : FileClient) (file_object : list byte)
    (file_name user_id purpose : string) (metadata : Metadata) : IO FileResponse :=
  let mime_type := or_default (fst (guess_type file_name)) "application/octet-stream" in
  log_info "Uploading file object: %s with purpose: %s for user: %s"
           [JString file_name; JString purpose; JString user_id] ;;
  catch
    (let form_data := [("purpose", purpose); ("user_id", user_id)] in
     let files := [("file", {| fp_filename := file_name;
                               fp_content := file_object;
                               fp_content_type := mime_type |})] in
     response <- client_post (client self) "/v1/uploads" form_data files ;;
     raise_for_status response ;;
     file_data <- response_json response ;;
     validated_response <- FileResponse_model_validate file_data ;;
     log_info "File uploaded successfully with ID: %s" [JString (fr_id validated_response)] ;;
     ret validated_response)
    (validated_handlers "uploading file").

Definition retrieve_file (self : FileClient) (file_id : string) : IO FileResponse :=
  log_info "Retrieving file with ID: %s" [JString file_id] ;;
  catch
    (response <- client_get (client self) ("/v1/uploads/" ++ file_id) ;;
     raise_for_status response ;;
     file_data <- response_json response ;;
     validated_response <- FileResponse_model_validate file_data ;;
     log_info "File metadata retrieved successfully for ID: %s" [JString file_id] ;;
     ret validated_response)
    (validated_handlers "retrieving file").

Definition delete_file (self : FileClient) (file_id : string) : IO json :=
  log_info "Attempting to delete file with ID: %s" [JString file_id] ;;
  catch
    (response <- client_delete (client self) ("/v1/uploads/" ++ file_id) ;;
     raise_for_status response ;;
     deletion_result <- response_json response ;;
     log_info "File deletion result for ID %s: %s" [JString file_id; deletion_result] ;;
     ret deletion_result)
    (plain_handlers "HTTP error occurred while deleting the file: %s"
                    "An error occurred while deleting the file: %s").

Definition download_file_as_object (self : FileClient) (file_id : string) : IO BytesIO :=
  catch
    (response <- client_get (client self) ("/v1/uploads/" ++ file_id ++ "/object") ;;
     raise_for_status response ;;
     ret (BytesIO_new (content response)))
    (plain_handlers "HTTP error in download_file_as_object: %s"
                    "Unexpected error in download_file_as_object: %s").

Definition get_signed_url (self : FileClient) (file_id : string) : IO json :=
  catch
    (response <- client_get (client self) ("/v1/uploads/" ++ file_id ++ "/signed-url") ;;
     raise_for_status response ;;
     data <- response_json response ;;
     py_get data "signed_url")
    (plain_handlers "HTTP error in get_signed_url: %s"
                    "Unexpected error in get_signed_url: %s").

Definition get_file_as_base64 (self : FileClient) (file_id : string) : IO json :=
  catch
    (response <- client_get (client self) ("/v1/uploads/" ++ file_id ++ "/base64") ;;
     raise_for_status response ;;
     data <- response_json response ;;
     py_get data "base64")
    (plain_handlers "HTTP error in get_file_as_base64: %s"
                    "Unexpected error in get_file_as_base64: %s").

(** The two methods that extract one field of the body. *)
Inductive Extraction := SignedUrl | Base64.

Definition extraction_field (x : Extraction) : string :=
  match x with SignedUrl => "signed_url" | Base64 => "base64" end.

Definition extraction_url (x : Extraction) (file_id : string) : string :=
  match x with
  | SignedUrl => "/v1/uploads/" ++ file_id ++ "/signed-url"
  | Base64 => "/v1/uploads/" ++ file_id ++ "/base64"
  end.

Definition extract (x : Extraction) (self : FileClient) (file_id : string) : IO json :=
  match x with
  | SignedUrl => get_signed_url self file_id
  | Base64 => get_file_as_base64 self file_id
  end.

(** *** Calls, for statements about every operation *)

Inductive Call :=
| CallUploadFile (file_path user_id purpose : string) (metadata : Metadata)
| CallUploadFileObject (file_object : list byte) (file_name user_id purpose : string)
                       (metadata : Metadata)
| CallRetrieveFile (file_id : string)
| CallDeleteFile (file_id : string)
| CallDownloadFileAsObject (file_id : string)
| CallGetSignedUrl (file_id : string)
| CallGetFileAsBase64 (file_id : string).

Inductive Value :=
| VFileResponse (v : FileResponse)
| VObject (v : json)
| VBytesIO (v : BytesIO).

Definition perform (self : FileClient) (c : Call) : IO Value :=
  match c with
  | CallUploadFile file_path user_id purpose metadata =>
      v <- upload_file self file_path user_id purpose metadata ;; ret (VFileResponse v)
  | CallUploadFileObject file_object file_name user_id purpose metadata =>
      v <- upload_file_object self file_object file_name user_id purpose metadata ;;
      ret (VFileResponse v)
  | CallRetrieveFile file_id => v <- retrieve_file self file_id ;; ret (VFileResponse v)
  | CallDeleteFile file_id => v <- delete_file self file_id ;; ret (VObject v)
  | CallDownloadFileAsObject file_id =>
      v <- download_file_as_object self file_id ;; ret (VBytesIO v)
  | CallGetSignedUrl file_id => v <- get_signed_url self file_id ;; ret (VObject v)
  | CallGetFileAsBase64 file_id => v <- get_file_as_base64 self file_id ;; ret (VObject v)
  end.

End WithExternals.

(** ** Reading the events of a call *)

Definition requests (evs : list Event) : list Request :=
  flat_map (fun ev => match ev with EvSend r => [r] | _ => [] end) evs.

Definition decodings (evs : list Event) : list (list byte) :=
  flat_map (fun ev => match ev with EvDecode b => [b] | _ => [] end) evs.

Definition validations (evs : list Event) : list json :=
  flat_map (fun ev => match ev with EvValidate d => [d] | _ => [] end) evs.

Definition opened (evs : list Event) : list nat :=
  flat_map (fun ev => match ev with EvOpen h _ => [h] | _ => [] end) evs.

Definition closed (evs : list Event) : list nat :=
  flat_map (fun ev => match ev with EvClose h => [h] | _ => [] end) evs.

(** An event that is a request satisfies [P]. *)
Definition on_requests (P : Request -> Prop) (ev : Event) : Prop :=
  match ev with EvSend r => P r | _ => True end.

(** An event that neither acquires nor releases a handle. *)
Definition quiet (ev : Event) : Prop :=
  match ev with EvOpen _ _ | EvClose _ => False | _ => True end.

(** Postconditions of a computation: every event of every run satisfies
    [Q]; every run leaves the open handles as it found them. *)
Definition emits_only {A} (Q : Event -> Prop) (m : IO A) : Prop :=
  forall w, Forall Q (events (m w)).

Definition keeps_handles {A} (m : IO A) : Prop :=
  forall w, w_open (world (m w)) = w_open w.

(** Every handle acquired during a run is released during it, in order. *)
Definition balanced {A} (m : IO A) : Prop :=
  forall w, closed (events (m w)) = opened (events (m w)).

(** The request an upload sends, once the source is readable. *)
Definition upload_request (self : FileClient) (filename : string) (bytes : list byte)
    (mime_type user_id purpose : string) : Request :=
  build_request (client self) POST "/v1/uploads"
    [("purpose", purpose); ("user_id", user_id)]
    [("file", {| fp_filename := filename; fp_content := bytes;
                 fp_content_type := mime_type |})].

Definition header (name : string) (r : Request) : option string :=
  dict_lookup name (req_headers r).

(** The content-types of the parts named [file] of a request. *)
Definition file_content_types (r : Request) : list string :=
  flat_map (fun p => if String.eqb (fst p) "file" then [fp_content_type (snd p)] else [])
           (req_files r).

Definition raised {A} (r : Run A) : option Exn :=
  match result r with inl e => Some e | inr _ => None end.

Definition returned {A} (r : Run A) : option A :=
  match result r with inl _ => None | inr a => Some a end.

(** *** What a call sends and inspects *)

(** The records logged at level [ERROR]. *)
Definition error_logs (evs : list Event) : list (string * list json) :=
  flat_map (fun ev => match ev with EvLog ERROR fmt args => [(fmt, args)] | _ => [] end)
           evs.

(** The request a call hands to the transport; an upload by path has none
    when the path cannot be opened. *)
Definition call_request `{Ext : Externals} (self : FileClient) (c : Call) (w : World)
    : option Request :=
  match c with
  | CallUploadFile file_path user_id purpose _ =>
      match w_files w file_path with
      | Some bytes =>
          Some (upload_request self (basename file_path) bytes
                  (or_default (fst (guess_type file_path)) "application/octet-stream")
                  user_id purpose)
      | None => None
      end
  | CallUploadFileObject file_object file_name user_id purpose _ =>
      Some (upload_request self file_name file_object
              (or_default (fst (guess_type file_name)) "application/octet-stream")
              user_id purpose)
  | CallRetrieveFile file_id =>
      Some (build_request (client self) GET ("/v1/uploads/" ++ file_id) [] [])
  | CallDeleteFile file_id =>
      Some (build_request (client self) DELETE ("/v1/uploads/" ++ file_id) [] [])
  | CallDownloadFileAsObject file_id =>
      Some (build_request (client self) GET ("/v1/uploads/" ++ file_id ++ "/object") [] [])
  | CallGetSignedUrl file_id =>
      Some (build_request (client self) GET
              ("/v1/uploads/" ++ file_id ++ "/signed-url") [] [])
  | CallGetFileAsBase64 file_id =>
      Some (build_request (client self) GET ("/v1/uploads/" ++ file_id ++ "/base64") [] [])
  end.

(** The calls that validate the body into a [FileResponse]. *)
Definition returns_model (c : Call) : bool :=
  match c with
  | CallUploadFile _ _ _ _ | CallUploadFileObject _ _ _ _ _ | CallRetrieveFile _ => true
  | _ => false
  end.

(** The calls that decode the body as JSON: all but the download. *)
Definition reads_json (c : Call) : bool :=
  match c with
  | CallDownloadFileAsObject _ => false
  | _ => true
  end.

(** The calls that return one field of the body, with the field. *)
Definition extracted_field (c : Call) : option string :=
  match c with
  | CallGetSignedUrl _ => Some "signed_url"
  | CallGetFileAsBase64 _ => Some "base64"
  | _ => None
  end.

(** The events seen outside the process or kept as an error record:
    acquiring and releasing a handle, a request, a record at level [ERROR]. *)
Definition outward (ev : Event) : bool :=
  match ev with
  | EvOpen _ _ | EvClose _ | EvSend _ | EvLog ERROR _ _ => true
  | _ => false
  end.

(** The filenames of the parts of a request. *)
Definition part_filenames (r : Request) : list string :=
  map (fun p => fp_filename (snd p)) (req_files r).

(** ** A test double for the collaborators

    A small concrete instance of [Externals] and of the world, used to run
    the client on examples. *)
Module Sample.

(** Modelled from the spec: the FileRecord shape of the data model
    (identifier, purpose, owning user, filename, content-type, size, creation
    timestamp, optional metadata); the model class itself is defined by the
    shared validation package, outside this repository. *)
Record FileRecord := {
  id : string;
  purpose : string;
  user_id : string;
  filename : string;
  mime_type : string;
  size : Z;
  created_at : Z;
  metadata : option json
}.

Definition verr {A} (field reason : string) : (string * string) + A :=
  inl ("1 validation error for FileResponse: " ++ field ++ ": " ++ reason,
       "[{loc: " ++ field ++ ", msg: " ++ reason ++ "}]").

Definition field_str (items : list (string * json)) (field : string)
    : (string * string) + string :=
  match dict_lookup field items with
  | Some (JString s) => inr s
  | Some _ => verr field "Input should be a valid string"
  | None => verr field "Field required"
  end.

Definition field_int (items : list (string * json)) (field : string)
    : (string * string) + Z :=
  match dict_lookup field items with
  | Some (JInt n) => inr n
  | Some _ => verr field "Input should be a valid integer"
  | None => verr field "Field required"
  end.

Definition and_then {E A B} (x : E + A) (k : A -> E + B) : E + B :=
  match x with inl e => inl e | inr a => k a end.

Definition validate (data : json) : (string * string) + FileRecord :=
  match data with
  | JObject items =>
      and_then (field_str items "id") (fun i =>
      and_then (field_str items "purpose") (fun p =>
      and_then (field_str items "user_id") (fun u =>
      and_then (field_str items "filename") (fun f =>
      and_then (field_str items "mime_type") (fun m =>
      and_then (field_int items "size") (fun b =>
      and_then (field_int items "created_at") (fun t =>
      inr {| id := i; purpose := p; user_id := u; filename := f; mime_type := m;
             size := b; created_at := t;
             metadata := dict_lookup "metadata" items |})))))))
  | _ => verr "FileResponse" "Input should be a valid dictionary"
  end.

(** The text after the last dot, if there is a dot. *)
Fixpoint extension (s : string) : option string :=
  match s with
  | EmptyString => None
  | String c rest =>
      match extension rest with
      | Some e => Some e
      | None => if Ascii.eqb c "."%char then Some rest else None
      end
  end.

Definition mime_table : list (string * string) :=
  [("txt", "text/plain"); ("png", "image/png"); ("json", "application/json");
   ("pdf", "application/pdf")].

Definition guess (name : string) : option string * option string :=
  match extension (basename name) with
  | Some e => (dict_lookup e mime_table, None)
  | None => (None, None)
  end.

Definition quoted (s : string) : string :=
  String "034"%char (s ++ String "034"%char EmptyString).

Definition member (key value : string) : string := quoted key ++ ": " ++ value.

Definition body_f1 : string :=
  "{" ++ member "id" (quoted "f1") ++ ", " ++ member "purpose" (quoted "assistants")
      ++ ", " ++ member "user_id" (quoted "u1")
      ++ ", " ++ member "filename" (quoted "report.txt")
      ++ ", " ++ member "mime_type" (quoted "text/plain")
      ++ ", " ++ member "size" "5" ++ ", " ++ member "created_at" "1700000000" ++ "}".

Definition body_only_id : string := "{" ++ member "id" (quoted "f1") ++ "}".

Definition body_signed_url : string :=
  "{" ++ member "signed_url" (quoted "https://files.example/f1?sig=abc") ++ "}".

Definition body_base64 : string := "{" ++ member "base64" (quoted "aGVsbG8=") ++ "}".

Definition record_f1 : json :=
  JObject [("id", JString "f1"); ("purpose", JString "assistants");
           ("user_id", JString "u1"); ("filename", JString "report.txt");
           ("mime_type", JString "text/plain"); ("size", JInt 5);
           ("created_at", JInt 1700000000)].

(** The bodies the double decodes; anything else is not JSON for it. *)
Definition bodies : list (string * json) :=
  [("true", JBool true);
   ("false", JBool false);
   ("null", JNull);
   ("[]", JArray []);
   ("{}", JObject []);
   (body_only_id, JObject [("id", JString "f1")]);
   (body_signed_url,
    JObject [("signed_url", JString "https://files.example/f1?sig=abc")]);
   (body_base64, JObject [("base64", JString "aGVsbG8=")]);
   (body_f1, record_f1)].

Definition loads (body : list byte) : string + json :=
  match dict_lookup (string_of_list_byte body) bodies with
  | Some v => inr v
  | None => inl "Expecting value: line 1 column 1 (char 0)"
  end.

#[export] Instance externals : Externals := {|
  FileResponse := FileRecord;
  fr_id := id;
  model_validate := validate;
  guess_type := guess;
  json_loads := loads;
  status_message := fun r => "HTTP status error for '" ++ reason_phrase r ++ "'"
|}.

Definition respond (status : Z) (reason body : string) : Response :=
  {| status_code := status; reason_phrase := reason;
     content := list_byte_of_string body |}.

Definition files (path : string) : option (list byte) :=
  if String.eqb path "/tmp/report.txt" then Some (list_byte_of_string "hello")
  else None.

(** A world whose server gives the same answer to every request. *)
Definition world_answering (answer : Exn + Response) : World :=
  {| w_files := files; w_open := []; w_server := fun _ => answer |}.

Definition session (key : option string) : FileClient :=
  {| base_url := "https://files.example";
     api_key := key;
     client := {| client_base_url := "https://files.example";
                  client_headers := auth_headers key |} |}.

End Sample.

(** ** Running the client *)

Section Properties.
Context `{Ext : Externals}.

#[local] Arguments String.append : simpl never.

Lemma is_success_true (r : Response) :
  (200 <= status_code r <= 299)%Z -> is_success r = true.
Proof.
  intros [Hlo Hhi]. unfold is_success.
  apply andb_true_intro; split; apply Z.leb_le; assumption.
Qed.

Lemma is_success_false (r : Response) :
  (status_code r < 200 \/ 299 < status_code r)%Z -> is_success r = false.
Proof.
  intros H. unfold is_success. apply andb_false_iff.
  destruct H as [H | H]; [left | right]; apply Z.leb_gt; assumption.
Qed.

(** Unfolds the monad and the library calls of a method body, keeping the
    URLs and messages folded. *)
Ltac io_run :=
  unfold raise_for_status, response_json, FileResponse_model_validate, py_get,
         validated_handlers, plain_handlers, log_info, log_error;
  cbn;
  unfold io_bind, io_catch, io_ret, io_raise, after, emit,
         client_get, client_delete, client_post, send;
  cbn.

Ltac io_with H := rewrite H; cbn.

(** What [retrieve_file] does when the body of a 2xx response decodes but
    does not validate. *)
Lemma retrieve_file_invalid_run self file_id w resp data s j :
  w_server w (build_request (client self) GET ("/v1/uploads/" ++ file_id) [] []) = inr resp ->
  is_success resp = true ->
  json_loads (content resp) = inr data ->
  model_validate data = inl (s, j) ->
  retrieve_file self file_id w =
  mkRun (inl (ValueError ("Validation error: " ++ s))) w
        [EvLog INFO "Retrieving file with ID: %s" [JString file_id];
         EvSend (build_request (client self) GET ("/v1/uploads/" ++ file_id) [] []);
         EvDecode (content resp);
         EvValidate data;
         EvLog ERROR "Validation error: %s" [JString j]].
Proof.
  intros Hs Hok Hj Hv. unfold retrieve_file. io_run.
  io_with Hs. io_with Hok. io_with Hj. io_with Hv. reflexivity.
Qed.

(** What [retrieve_file] does on a response that is not a success. *)
Lemma retrieve_file_status_run self file_id w resp :
  w_server w (build_request (client self) GET ("/v1/uploads/" ++ file_id) [] []) = inr resp ->
  is_success resp = false ->
  retrieve_file self file_id w =
  mkRun (inl (HTTPStatusError (status_message resp) resp)) w
        [EvLog INFO "Retrieving file with ID: %s" [JString file_id];
         EvSend (build_request (client self) GET ("/v1/uploads/" ++ file_id) [] []);
         EvLog ERROR ("HTTP error occurred while " ++ "retrieving file" ++ ": %s")
               [JString (status_message resp)]].
Proof.
  intros Hs Hok. unfold retrieve_file. io_run.
  io_with Hs. io_with Hok. reflexivity.
Qed.

(** C1. When the server answers [retrieve_file] with a 2xx status and a JSON
    body that the response model rejects (for instance a required field is
    missing), the call raises the client's validation failure, the
    [ValueError] whose message carries the text of the model's error; the
    failure is not of the unexpected kind, and the request was sent once. *)
Theorem retrieve_file_invalid_body_raises_validation self file_id w resp data s j :
  w_server w (build_request (client self) GET ("/v1/uploads/" ++ file_id) [] []) = inr resp ->
  (200 <= status_code resp <= 299)%Z ->
  json_loads (content resp) = inr data ->
  model_validate data = inl (s, j) ->
  let r := retrieve_file self file_id w in
  raised r = Some (ValueError ("Validation error: " ++ s)) /\
  (forall e, raised r = Some e ->
     error_kind e = KValidation /\ error_kind e <> KUnexpected) /\
  requests (events r) =
    [build_request (client self) GET ("/v1/uploads/" ++ file_id) [] []].
Proof.
  intros Hs Hok Hj Hv r. subst r.
  rewrite (retrieve_file_invalid_run _ _ _ _ _ _ _ Hs (is_success_true _ Hok) Hj Hv).
  unfold raised; cbn. split; [reflexivity | split; [| reflexivity]].
  intros e He. injection He as <-. cbn. split; [reflexivity | discriminate].
Qed.

(** C3. When the server answers [retrieve_file] with a status outside
    200..299, the call raises the HTTP status failure built for that
    response; the failure is of the transport kind, it is never the
    validation failure, and the body is neither decoded nor validated. *)
Theorem retrieve_file_non_2xx_raises_status_error self file_id w resp :
  w_server w (build_request (client self) GET ("/v1/uploads/" ++ file_id) [] []) = inr resp ->
  (status_code resp < 200 \/ 299 < status_code resp)%Z ->
  let r := retrieve_file self file_id w in
  raised r = Some (HTTPStatusError (status_message resp) resp) /\
  (forall e, raised r = Some e ->
     error_kind e = KTransport /\ error_kind e <> KValidation) /\
  decodings (events r) = [] /\
  validations (events r) = [].
Proof.
  intros Hs Hst r. subst r.
  rewrite (retrieve_file_status_run _ _ _ _ Hs (is_success_false _ Hst)).
  unfold raised; cbn. split; [reflexivity | split; [| split; reflexivity]].
  intros e He. injection He as <-. cbn. split; [reflexivity | discriminate].
Qed.

(** C4. When the server answers [delete_file] with a 2xx status, the call
    returns the decoded JSON body itself, whatever value it is, and raises
    nothing. *)
Theorem delete_file_returns_decoded_body self file_id w resp v :
  w_server w (build_request (client self) DELETE ("/v1/uploads/" ++ file_id) [] []) = inr resp ->
  (200 <= status_code resp <= 299)%Z ->
  json_loads (content resp) = inr v ->
  let r := delete_file self file_id w in
  returned r = Some v /\ raised r = None.
Proof.
  intros Hs Hok Hj r. subst r. apply is_success_true in Hok.
  unfold returned, raised, delete_file. io_run.
  io_with Hs. io_with Hok. io_with Hj. split; reflexivity.
Qed.

Lemma BytesIO_new_read (bytes : list byte) :
  fst (BytesIO_read (BytesIO_new bytes)) = bytes.
Proof. reflexivity. Qed.

Lemma BytesIO_seek_read (b : BytesIO) (n : nat) :
  fst (BytesIO_read (BytesIO_seek b n)) = skipn n (buffer b).
Proof. reflexivity. Qed.

(** C5. When the server answers [download_file_as_object] with a 2xx status,
    the call returns a byte buffer holding exactly the content of the
    response, positioned at offset 0 and seekable: reading it gives the
    content, and reading after a seek gives the content from that offset. *)
Theorem download_file_as_object_returns_content self file_id w resp :
  w_server w (build_request (client self) GET
                ("/v1/uploads/" ++ file_id ++ "/object") [] []) = inr resp ->
  (200 <= status_code resp <= 299)%Z ->
  exists b,
    returned (download_file_as_object self file_id w) = Some b /\
    BytesIO_tell b = 0 /\
    fst (BytesIO_read b) = content resp /\
    BytesIO_seekable b = true /\
    (forall n, fst (BytesIO_read (BytesIO_seek b n)) = skipn n (content resp)).
Proof.
  intros Hs Hok. apply is_success_true in Hok.
  exists (BytesIO_new (content resp)).
  unfold returned, download_file_as_object. io_run.
  io_with Hs. io_with Hok.
  repeat split.
Qed.

Lemma extract_object_run x self file_id w resp items :
  w_server w (build_request (client self) GET (extraction_url x file_id) [] []) = inr resp ->
  is_success resp = true ->
  json_loads (content resp) = inr (JObject items) ->
  extract x self file_id w =
  mkRun (inr (match dict_lookup (extraction_field x) items with
              | Some v => v
              | None => JNull
              end)) w
        [EvSend (build_request (client self) GET (extraction_url x file_id) [] []);
         EvDecode (content resp)].
Proof.
  intros Hs Hok Hj.
  destruct x; unfold extract, get_signed_url, get_file_as_base64, extraction_url in *;
    io_run; io_with Hs; io_with Hok; io_with Hj; reflexivity.
Qed.

(** C2 (amended). When the server answers [get_signed_url] or
    [get_file_as_base64] with a 2xx status and a body that decodes to a JSON
    object, the call raises nothing: it returns [None] when the object lacks
    the field, and the field's value unchanged when it has it. *)
Theorem extract_from_object_body x self file_id w resp items :
  w_server w (build_request (client self) GET (extraction_url x file_id) [] []) = inr resp ->
  (200 <= status_code resp <= 299)%Z ->
  json_loads (content resp) = inr (JObject items) ->
  let r := extract x self file_id w in
  raised r = None /\
  (dict_lookup (extraction_field x) items = None -> returned r = Some JNull) /\
  (forall v, dict_lookup (extraction_field x) items = Some v -> returned r = Some v).
Proof.
  intros Hs Hok Hj r. subst r.
  rewrite (extract_object_run _ _ _ _ _ _ Hs (is_success_true _ Hok) Hj).
  unfold raised, returned; cbn.
  split; [reflexivity | split].
  - intros ->. reflexivity.
  - intros v ->. reflexivity.
Qed.

(** C9. The [metadata] argument of the two uploads has no effect: two calls
    that differ only in it have the same run, that is the same result, the
    same final world and the same events, requests included. *)
Theorem upload_ignores_metadata self file_path file_object file_name user_id purpose
    (metadata1 metadata2 : Metadata) w :
  upload_file self file_path user_id purpose metadata1 w =
  upload_file self file_path user_id purpose metadata2 w /\
  upload_file_object self file_object file_name user_id purpose metadata1 w =
  upload_file_object self file_object file_name user_id purpose metadata2 w.
Proof. split; reflexivity. Qed.

(** *** Proof rules for the two postconditions *)

Lemma events_after {A} (evs : list Event) (r : Run A) :
  events (after evs r) = (evs ++ events r)%list.
Proof. destruct r; reflexivity. Qed.

Lemma world_after {A} (evs : list Event) (r : Run A) :
  world (after evs r) = world r.
Proof. destruct r; reflexivity. Qed.

Lemma emits_ret {A} Q (a : A) : emits_only Q (ret a).
Proof. intros w. constructor. Qed.

Lemma emits_raise {A} Q (e : Exn) : emits_only Q (raise e : IO A).
Proof. intros w. constructor. Qed.

Lemma emits_emit (Q : Event -> Prop) ev : Q ev -> emits_only Q (emit ev).
Proof. intros H w. cbn. auto. Qed.

Lemma emits_bind {A B} Q (m : IO A) (k : A -> IO B) :
  emits_only Q m -> (forall a, emits_only Q (k a)) -> emits_only Q (bind m k).
Proof.
  intros Hm Hk w. specialize (Hm w). cbn. unfold io_bind.
  destruct (m w) as [[e | a] w1 evs]; cbn in *; [assumption |].
  rewrite events_after. apply Forall_app; split; [assumption | apply Hk].
Qed.

Lemma emits_catch {A} Q (m : IO A) (h : Exn -> IO A) :
  emits_only Q m -> (forall e, emits_only Q (h e)) -> emits_only Q (catch m h).
Proof.
  intros Hm Hh w. specialize (Hm w). cbn. unfold io_catch.
  destruct (m w) as [[e | a] w1 evs]; cbn in *; [| assumption].
  rewrite events_after. apply Forall_app; split; [assumption | apply Hh].
Qed.

Lemma emits_send (Q : Event -> Prop) c m url data files :
  Q (EvSend (build_request c m url data files)) ->
  emits_only Q (send c m url data files).
Proof. intros H w. cbn. auto. Qed.

Lemma emits_with_open {A} (Q : Event -> Prop) path (body : list byte -> IO A) :
  (forall h, Q (EvOpen h path)) -> (forall h, Q (EvClose h)) ->
  (forall bytes, emits_only Q (body bytes)) ->
  emits_only Q (with_open path body).
Proof.
  intros Ho Hc Hb w. unfold with_open.
  destruct (w_files w path) as [bytes |]; cbn; [| constructor].
  match goal with |- context [body bytes ?w1] =>
    specialize (Hb bytes w1); destruct (body bytes w1) as [res w2 evs] end.
  cbn in *. constructor; [apply Ho |].
  apply Forall_app; split; [assumption | auto].
Qed.

Lemma keeps_ret {A} (a : A) : keeps_handles (ret a).
Proof. intros w. reflexivity. Qed.

Lemma keeps_raise {A} (e : Exn) : keeps_handles (raise e : IO A).
Proof. intros w. reflexivity. Qed.

Lemma keeps_emit ev : keeps_handles (emit ev).
Proof. intros w. reflexivity. Qed.

Lemma keeps_send c m url data files : keeps_handles (send c m url data files).
Proof. intros w. reflexivity. Qed.

Lemma keeps_bind {A B} (m : IO A) (k : A -> IO B) :
  keeps_handles m -> (forall a, keeps_handles (k a)) -> keeps_handles (bind m k).
Proof.
  intros Hm Hk w. specialize (Hm w). cbn. unfold io_bind.
  destruct (m w) as [[e | a] w1 evs]; cbn in *; [assumption |].
  rewrite world_after, Hk. assumption.
Qed.

Lemma keeps_catch {A} (m : IO A) (h : Exn -> IO A) :
  keeps_handles m -> (forall e, keeps_handles (h e)) -> keeps_handles (catch m h).
Proof.
  intros Hm Hh w. specialize (Hm w). cbn. unfold io_catch.
  destruct (m w) as [[e | a] w1 evs]; cbn in *; [| assumption].
  rewrite world_after, Hh. assumption.
Qed.

Lemma fresh_handle_not_open (open : list nat) : ~ In (fresh_handle open) open.
Proof.
  intros Hin. unfold fresh_handle in Hin.
  assert (Hle : Forall (fun k => k <= list_max open) open)
    by (apply list_max_le; apply Nat.le_refl).
  rewrite Forall_forall in Hle. apply Hle in Hin. lia.
Qed.

Lemma release_fresh (open : list nat) :
  release (fresh_handle open) (fresh_handle open :: open) = open.
Proof.
  unfold release. rewrite remove_cons.
  apply notin_remove, fresh_handle_not_open.
Qed.

(** The block of a [with open] may do anything that keeps the handles: the
    handle it was given is released on the way out. *)
Lemma keeps_with_open {A} path (body : list byte -> IO A) :
  (forall bytes, keeps_handles (body bytes)) -> keeps_handles (with_open path body).
Proof.
  intros Hb w. unfold with_open.
  destruct (w_files w path) as [bytes |]; cbn; [| reflexivity].
  match goal with |- context [body bytes ?w1] =>
    specialize (Hb bytes w1); destruct (body bytes w1) as [res w2 evs] end.
  cbn in *. rewrite Hb. apply release_fresh.
Qed.

Create HintDb io discriminated.
#[local] Hint Resolve emits_ret emits_raise emits_emit emits_bind emits_catch
  emits_send emits_with_open : io.

(** Applies the rules for events along the structure of a method body,
    splitting on what a [match] or [if] of the body inspects; what is left
    is the condition on one event. *)
Ltac io_rules :=
  repeat (intros; cbn beta zeta;
          first
            [ progress eauto 2 with io
            | match goal with
              | |- emits_only _ (match ?x with _ => _ end) => destruct x
              | |- emits_only _ (bind _ _) => apply emits_bind
              | |- emits_only _ (catch _ _) => apply emits_catch
              | |- emits_only _ (with_open _ _) => apply emits_with_open
              | |- emits_only _ (emit _) => apply emits_emit
              | |- emits_only _ (send _ _ _ _ _) => apply emits_send
              end
            | exact I
            | cbn; reflexivity ]).

Ltac io_open :=
  unfold upload_file, upload_file_object, retrieve_file, delete_file,
         download_file_as_object, get_signed_url, get_file_as_base64,
         raise_for_status, response_json, FileResponse_model_validate, py_get,
         validated_handlers, plain_handlers, log_info, log_error,
         client_get, client_delete, client_post.

(** *** Handles acquired and released during a call *)

Lemma quiet_opened evs : Forall quiet evs -> opened evs = [].
Proof.
  induction 1 as [| ev evs Hev _ IH]; [reflexivity |].
  destruct ev; cbn in Hev; try contradiction; exact IH.
Qed.

Lemma quiet_closed evs : Forall quiet evs -> closed evs = [].
Proof.
  induction 1 as [| ev evs Hev _ IH]; [reflexivity |].
  destruct ev; cbn in Hev; try contradiction; exact IH.
Qed.

Lemma opened_app evs1 evs2 : opened (evs1 ++ evs2) = (opened evs1 ++ opened evs2)%list.
Proof. apply flat_map_app. Qed.

Lemma closed_app evs1 evs2 : closed (evs1 ++ evs2) = (closed evs1 ++ closed evs2)%list.
Proof. apply flat_map_app. Qed.

Lemma balanced_quiet {A} (m : IO A) : emits_only quiet m -> balanced m.
Proof.
  intros H w. rewrite (quiet_opened _ (H w)), (quiet_closed _ (H w)). reflexivity.
Qed.

Lemma balanced_bind {A B} (m : IO A) (k : A -> IO B) :
  balanced m -> (forall a, balanced (k a)) -> balanced (bind m k).
Proof.
  intros Hm Hk w. specialize (Hm w). change (bind m k w) with (io_bind m k w).
  unfold io_bind. destruct (m w) as [[e | a] w1 evs]; cbn [events] in *; [assumption |].
  rewrite events_after, opened_app, closed_app, Hm, Hk. reflexivity.
Qed.

Lemma balanced_catch {A} (m : IO A) (h : Exn -> IO A) :
  balanced m -> (forall e, balanced (h e)) -> balanced (catch m h).
Proof.
  intros Hm Hh w. specialize (Hm w). change (catch m h w) with (io_catch m h w).
  unfold io_catch. destruct (m w) as [[e | a] w1 evs]; cbn [events] in *; [| assumption].
  rewrite events_after, opened_app, closed_app, Hm, Hh. reflexivity.
Qed.

Lemma with_open_handles {A} path (body : list byte -> IO A) w :
  (forall bytes, emits_only quiet (body bytes)) ->
  closed (events (with_open path body w)) = opened (events (with_open path body w)) /\
  (forall bytes, w_files w path = Some bytes ->
     opened (events (with_open path body w)) = [fresh_handle (w_open w)]).
Proof.
  intros Hb. unfold with_open.
  destruct (w_files w path) as [bytes |].
  - match goal with |- context [body bytes ?w1] =>
      specialize (Hb bytes w1); destruct (body bytes w1) as [res w2 evs] end.
    cbn [events] in *.
    change (EvOpen (fresh_handle (w_open w)) path :: evs ++ [EvClose (fresh_handle (w_open w))])%list
      with ([EvOpen (fresh_handle (w_open w)) path] ++ evs ++ [EvClose (fresh_handle (w_open w))])%list.
    rewrite !opened_app, !closed_app, (quiet_opened _ Hb), (quiet_closed _ Hb).
    split; [reflexivity | intros; reflexivity].
  - split; [reflexivity | discriminate].
Qed.

Lemma balanced_with_open {A} path (body : list byte -> IO A) :
  (forall bytes, emits_only quiet (body bytes)) -> balanced (with_open path body).
Proof. intros Hb w. apply with_open_handles, Hb. Qed.

Lemma opened_catch_quiet {A} (m : IO A) (h : Exn -> IO A) w :
  (forall e, emits_only quiet (h e)) ->
  opened (events (catch m h w)) = opened (events (m w)).
Proof.
  intros Hh. change (catch m h w) with (io_catch m h w). unfold io_catch.
  destruct (m w) as [[e | a] w1 evs]; cbn [events]; [| reflexivity].
  rewrite events_after, opened_app, (quiet_opened _ (Hh e w1)).
  apply app_nil_r.
Qed.

Lemma opened_after_emit {A} ev (k : unit -> IO A) w :
  quiet ev -> opened (events (bind (emit ev) k w)) = opened (events (k tt w)).
Proof.
  intros Hq. change (bind (emit ev) k w) with (io_bind (emit ev) k w).
  unfold io_bind, emit. rewrite events_after.
  change ([ev] ++ events (k tt w))%list with (ev :: events (k tt w)).
  destruct ev; cbn in Hq; try contradiction; reflexivity.
Qed.

Lemma validated_handlers_quiet {A} what e :
  emits_only quiet (validated_handlers (A := A) what e).
Proof. io_open. io_rules. Qed.

Lemma upload_body_quiet self filename mime_type user_id purpose file_object :
  emits_only quiet
    (response <- client_post (client self) "/v1/uploads"
                   [("purpose", purpose); ("user_id", user_id)]
                   [("file", {| fp_filename := filename;
                                fp_content := file_object;
                                fp_content_type := mime_type |})] ;;
     raise_for_status response ;;
     file_data <- response_json response ;;
     validated_response <- FileResponse_model_validate file_data ;;
     log_info "File uploaded successfully with ID: %s"
              [JString (fr_id validated_response)] ;;
     ret validated_response).
Proof. io_open. io_rules. Qed.

Lemma upload_file_keeps_handles self file_path user_id purpose metadata :
  keeps_handles (upload_file self file_path user_id purpose metadata).
Proof.
  io_open.
  repeat (intros; cbn beta zeta;
          first [ apply keeps_bind | apply keeps_catch | apply keeps_with_open
                | apply keeps_ret | apply keeps_raise | apply keeps_emit
                | apply keeps_send
                | match goal with
                  | |- keeps_handles (match ?x with _ => _ end) => destruct x
                  end ]).
Qed.

(** C6. [upload_file] leaves no handle behind.  Whatever the file system
    holds and whatever the server or the validation does (success, HTTP
    status failure, validation failure, any other exception), the handles
    open after the call are those open before it, and the handles acquired
    during the call are exactly those released during it; when the file
    exists, one handle was acquired. *)
Theorem upload_file_releases_handle self file_path user_id purpose metadata w :
  let r := upload_file self file_path user_id purpose metadata w in
  w_open (world r) = w_open w /\
  closed (events r) = opened (events r) /\
  (forall bytes, w_files w file_path = Some bytes ->
     opened (events r) = [fresh_handle (w_open w)]).
Proof.
  cbn zeta. split; [| split].
  - apply upload_file_keeps_handles.
  - revert w. change (balanced (upload_file self file_path user_id purpose metadata)).
    unfold upload_file. cbn zeta.
    apply balanced_bind; [apply balanced_quiet; io_open; io_rules | intros _].
    apply balanced_catch.
    + apply balanced_with_open. intros bytes. apply upload_body_quiet.
    + intros e. apply balanced_quiet, validated_handlers_quiet.
  - intros bytes Hfile. unfold upload_file, log_info. cbn zeta.
    rewrite opened_after_emit by exact I.
    rewrite opened_catch_quiet by (intros e; apply validated_handlers_quiet).
    eapply with_open_handles; [| exact Hfile].
    intros bytes'. apply upload_body_quiet.
Qed.

(** *** The session headers *)

Lemma requests_in Q evs r :
  Forall (on_requests Q) evs -> In r (requests evs) -> Q r.
Proof.
  intros Hall Hin. unfold requests in Hin. apply in_flat_map in Hin.
  destruct Hin as [ev [Hev Hr]]. rewrite Forall_forall in Hall.
  specialize (Hall ev Hev). destruct ev; cbn in Hr; try contradiction.
  destruct Hr as [<- | []]. exact Hall.
Qed.

Lemma perform_requests self call :
  emits_only (on_requests (fun r => req_headers r = client_headers (client self)))
             (perform self call).
Proof. destruct call; unfold perform; io_open; io_rules. Qed.

Lemma FileClient_init_client base key w0 self :
  result (FileClient_init base key w0) = inr self ->
  client self = {| client_base_url := base; client_headers := auth_headers key |} /\
  api_key self = key /\ base_url self = base.
Proof.
  unfold FileClient_init, log_info. cbn. unfold io_bind, emit, io_ret, after. cbn.
  intros H. injection H as <-. repeat split.
Qed.

(** C7 (amended). A client constructed with a non-empty credential sends
    [Authorization: Bearer <token>] with every request of every operation; a
    client constructed without a credential sends no header at all. *)
Theorem requests_carry_bearer_of_nonempty_credential base key w0 self call w r :
  result (FileClient_init base key w0) = inr self ->
  In r (requests (events (perform self call w))) ->
  (forall token, key = Some token -> token <> "" ->
     header "Authorization" r = Some ("Bearer " ++ token)) /\
  (key = None -> header "Authorization" r = None /\ req_headers r = []).
Proof.
  intros Hinit Hin.
  apply FileClient_init_client in Hinit. destruct Hinit as [Hc _].
  apply (requests_in _ _ _ (perform_requests self call w)) in Hin.
  unfold header. rewrite Hin, Hc. cbn. split.
  - intros token -> Hne. unfold auth_headers. cbn.
    destruct (String.eqb_spec token ""); [contradiction | reflexivity].
  - intros ->. split; reflexivity.
Qed.

Lemma perform_depends_on_client self1 self2 call w :
  client self1 = client self2 -> perform self1 call w = perform self2 call w.
Proof.
  intros H. destruct call; unfold perform; io_open; rewrite H; reflexivity.
Qed.

(** C10. A client constructed with the empty string as credential sends no
    [Authorization] header with any request of any operation, and every
    call runs exactly as with a client constructed without a credential;
    a request carries the header only if the credential is a non-empty
    string. *)
Theorem empty_credential_sends_no_authorization base w0 self :
  result (FileClient_init base (Some "") w0) = inr self ->
  (forall call w r, In r (requests (events (perform self call w))) ->
     header "Authorization" r = None) /\
  (forall w1 self0 call w, result (FileClient_init base None w1) = inr self0 ->
     perform self call w = perform self0 call w) /\
  (forall key w1 self1 call w r,
     result (FileClient_init base key w1) = inr self1 ->
     In r (requests (events (perform self1 call w))) ->
     header "Authorization" r <> None ->
     exists token, key = Some token /\ token <> "").
Proof.
  intros Hinit. apply FileClient_init_client in Hinit. destruct Hinit as [Hc _].
  split; [| split].
  - intros call w r Hin.
    apply (requests_in _ _ _ (perform_requests self call w)) in Hin.
    unfold header. rewrite Hin, Hc. reflexivity.
  - intros w1 self0 call w H0. apply FileClient_init_client in H0.
    destruct H0 as [Hc0 _]. apply perform_depends_on_client.
    rewrite Hc, Hc0. reflexivity.
  - intros key w1 self1 call w r H1 Hin Hhdr.
    apply FileClient_init_client in H1. destruct H1 as [Hc1 _].
    apply (requests_in _ _ _ (perform_requests self1 call w)) in Hin.
    unfold header in Hhdr. rewrite Hin, Hc1 in Hhdr. cbn in Hhdr.
    destruct key as [token |]; [| contradiction].
    exists token. split; [reflexivity |].
    intros ->. apply Hhdr. reflexivity.
Qed.

(** *** The content-type of an upload *)

Lemma upload_file_requests self file_path user_id purpose metadata :
  emits_only
    (on_requests (fun r => file_content_types r =
        [or_default (fst (guess_type file_path)) "application/octet-stream"]))
    (upload_file self file_path user_id purpose metadata).
Proof. io_open. io_rules. Qed.

Lemma upload_file_object_requests self file_object file_name user_id purpose metadata :
  emits_only
    (on_requests (fun r => file_content_types r =
        [or_default (fst (guess_type file_name)) "application/octet-stream"]))
    (upload_file_object self file_object file_name user_id purpose metadata).
Proof. io_open. io_rules. Qed.

Lemma or_default_none default : or_default None default = default.
Proof. reflexivity. Qed.

Lemma or_default_some t default : t <> "" -> or_default (Some t) default = t.
Proof.
  intros Hne. unfold or_default.
  destruct (String.eqb_spec t ""); [contradiction | reflexivity].
Qed.

Lemma upload_file_object_sends self file_object file_name user_id purpose metadata w :
  requests (events (upload_file_object self file_object file_name user_id purpose
                                       metadata w)) =
  [upload_request self file_name file_object
     (or_default (fst (guess_type file_name)) "application/octet-stream")
     user_id purpose].
Proof.
  unfold upload_file_object, upload_request. io_run.
  destruct (w_server w _) as [e | resp]; cbn; [destruct e; reflexivity |].
  destruct (is_success resp); cbn; [| reflexivity].
  destruct (json_loads (content resp)) as [msg | data]; cbn; [reflexivity |].
  destruct (model_validate data) as [[s j] | v]; reflexivity.
Qed.

Lemma upload_file_sends self file_path user_id purpose metadata w bytes :
  w_files w file_path = Some bytes ->
  requests (events (upload_file self file_path user_id purpose metadata w)) =
  [upload_request self (basename file_path) bytes
     (or_default (fst (guess_type file_path)) "application/octet-stream")
     user_id purpose].
Proof.
  intros Hfile. unfold upload_file, upload_request, with_open. io_run.
  rewrite Hfile. cbn.
  destruct (w_server w _) as [e | resp]; cbn; [destruct e; reflexivity |].
  destruct (is_success resp); cbn; [| reflexivity].
  destruct (json_loads (content resp)) as [msg | data]; cbn; [reflexivity |].
  destruct (model_validate data) as [[s j] | v]; reflexivity.
Qed.

(** C8. The multipart [file] part an upload sends has the content-type that
    the MIME table gives for the name (the path for an upload by path, the
    file name for an upload by stream), and [application/octet-stream] when
    the table gives none. *)
Theorem upload_content_type_is_guessed_or_octet_stream
    self file_path file_object file_name user_id purpose metadata w :
  let octet := "application/octet-stream" in
  let by_path := upload_file self file_path user_id purpose metadata w in
  let by_stream :=
    upload_file_object self file_object file_name user_id purpose metadata w in
  (forall r, In r (requests (events by_path)) ->
     file_content_types r = [or_default (fst (guess_type file_path)) octet]) /\
  (forall bytes, w_files w file_path = Some bytes ->
     map file_content_types (requests (events by_path)) =
     [[or_default (fst (guess_type file_path)) octet]]) /\
  map file_content_types (requests (events by_stream)) =
    [[or_default (fst (guess_type file_name)) octet]] /\
  (forall name, fst (guess_type name) = None ->
     or_default (fst (guess_type name)) octet = octet) /\
  (forall name t, fst (guess_type name) = Some t -> t <> "" ->
     or_default (fst (guess_type name)) octet = t).
Proof.
  cbn zeta. repeat split.
  - intros r Hin.
    exact (requests_in _ _ _
             (upload_file_requests self file_path user_id purpose metadata w) Hin).
  - intros bytes Hfile. rewrite (upload_file_sends _ _ _ _ _ _ _ Hfile). reflexivity.
  - rewrite upload_file_object_sends. reflexivity.
  - intros name ->. reflexivity.
  - intros name t -> Hne. apply or_default_some, Hne.
Qed.

End Properties.

(** ** The client on the test double *)

Section Examples.
Import Sample.

Example retrieve_file_valid_body :
  returned (retrieve_file (session (Some "secret")) "f1"
              (world_answering (inr (respond 200 "OK" body_f1)))) =
  Some {| id := "f1"; purpose := "assistants"; user_id := "u1";
          filename := "report.txt"; mime_type := "text/plain"; size := 5;
          created_at := 1700000000; metadata := None |}.
Proof. reflexivity. Qed.

Example upload_file_missing_path :
  raised (upload_file (session None) "/tmp/absent.bin" "u1" "assistants" None
            (world_answering (inr (respond 200 "OK" body_f1)))) =
  Some (OSError "[Errno 2] No such file or directory: '/tmp/absent.bin'").
Proof. reflexivity. Qed.

Example get_signed_url_present :
  returned (get_signed_url (session None) "f1"
              (world_answering (inr (respond 200 "OK" body_signed_url)))) =
  Some (JString "https://files.example/f1?sig=abc").
Proof. reflexivity. Qed.

(** C1, on an example: a 200 response whose body has only [id]. *)
Lemma retrieve_file_invalid_body_example :
  let w := world_answering (inr (respond 200 "OK" body_only_id)) in
  (200 <= 200 <= 299)%Z /\
  json_loads (content (respond 200 "OK" body_only_id)) = inr (JObject [("id", JString "f1")]) /\
  raised (retrieve_file (session (Some "secret")) "f1" w) =
  Some (ValueError ("Validation error: "
                    ++ "1 validation error for FileResponse: purpose: Field required")).
Proof.
  cbn zeta. split; [lia | split; [reflexivity |]].
  refine (proj1 (retrieve_file_invalid_body_raises_validation
                   (session (Some "secret")) "f1"
                   (world_answering (inr (respond 200 "OK" body_only_id)))
                   (respond 200 "OK" body_only_id)
                   (JObject [("id", JString "f1")]) _ _
                   eq_refl _ eq_refl eq_refl)).
  cbn; lia.
Defined.

(** C3, on an example: a 404 response. *)
Lemma retrieve_file_not_found_example :
  let resp := respond 404 "Not Found" "{}" in
  let r := retrieve_file (session (Some "secret")) "missing" (world_answering (inr resp)) in
  (299 < 404)%Z /\
  raised r = Some (HTTPStatusError (status_message resp) resp) /\
  validations (events r) = [].
Proof.
  cbn zeta. split; [lia |].
  pose proof (retrieve_file_non_2xx_raises_status_error
                (session (Some "secret")) "missing"
                (world_answering (inr (respond 404 "Not Found" "{}")))
                (respond 404 "Not Found" "{}") eq_refl) as H.
  destruct H as [Hraised [_ [_ Hval]]]; [right; cbn; lia |].
  split; assumption.
Defined.

(** C4, on an example: the server answers [false]. *)
Lemma delete_file_false_example :
  (200 <= 200 <= 299)%Z /\
  returned (delete_file (session (Some "secret")) "f1"
              (world_answering (inr (respond 200 "OK" "false")))) = Some (JBool false).
Proof.
  split; [lia |].
  refine (proj1 (delete_file_returns_decoded_body
                   (session (Some "secret")) "f1"
                   (world_answering (inr (respond 200 "OK" "false")))
                   (respond 200 "OK" "false") (JBool false) eq_refl _ eq_refl)).
  cbn; lia.
Defined.

(** C5, on an example: the object is the five bytes of [hello]. *)
Lemma download_file_as_object_example :
  (200 <= 200 <= 299)%Z /\
  exists b,
    returned (download_file_as_object (session None) "f1"
                (world_answering (inr (respond 200 "OK" "hello")))) = Some b /\
    BytesIO_tell b = 0 /\
    fst (BytesIO_read b) = list_byte_of_string "hello".
Proof.
  split; [lia |].
  destruct (download_file_as_object_returns_content
              (session None) "f1"
              (world_answering (inr (respond 200 "OK" "hello")))
              (respond 200 "OK" "hello") eq_refl) as [b [Hret [Htell [Hread _]]]];
    [cbn; lia |].
  exists b. split; [exact Hret | split; [exact Htell | exact Hread]].
Defined.

(** C2, on an example: an empty object gives [None]. *)
Lemma extract_from_empty_object_example :
  (200 <= 200 <= 299)%Z /\
  dict_lookup (extraction_field SignedUrl) (@nil (string * json)) = None /\
  returned (get_signed_url (session None) "f1"
              (world_answering (inr (respond 200 "OK" "{}")))) = Some JNull.
Proof.
  split; [lia | split; [reflexivity |]].
  refine (proj1 (proj2 (extract_from_object_body SignedUrl
                   (session None) "f1"
                   (world_answering (inr (respond 200 "OK" "{}")))
                   (respond 200 "OK" "{}") [] eq_refl _ eq_refl)) eq_refl).
  cbn; lia.
Defined.

(** C2 as stated fails: a 200 response whose JSON body is an array has no
    field [signed_url] or [base64], and both calls raise. *)
Lemma extract_from_array_body_raises :
  let resp := respond 200 "OK" "[]" in
  let w := world_answering (inr resp) in
  let no_get := AttributeError "'list' object has no attribute 'get'" in
  (200 <= status_code resp <= 299)%Z /\
  json_loads (content resp) = inr (JArray []) /\
  raised (get_signed_url (session None) "f1" w) = Some no_get /\
  raised (get_file_as_base64 (session None) "f1" w) = Some no_get.
Proof. cbn zeta. split; [cbn; lia | repeat split]. Qed.

(** C6, on an example: an upload of an existing file that the server
    refuses. *)
Lemma upload_file_releases_handle_example :
  let r := upload_file (session None) "/tmp/report.txt" "u1" "assistants" None
             (world_answering (inr (respond 500 "Internal Server Error" ""))) in
  w_files (world_answering (inr (respond 500 "Internal Server Error" "")))
          "/tmp/report.txt" = Some (list_byte_of_string "hello") /\
  w_open (world r) = [] /\ opened (events r) = [1] /\ closed (events r) = [1].
Proof.
  cbn zeta. split; [reflexivity |].
  destruct (upload_file_releases_handle (session None) "/tmp/report.txt" "u1"
              "assistants" None
              (world_answering (inr (respond 500 "Internal Server Error" ""))))
    as [Hopen [Hbal Hacq]].
  specialize (Hacq _ eq_refl).
  split; [exact Hopen | split; [exact Hacq | rewrite Hbal; exact Hacq]].
Defined.

(** C7, on an example: the token [secret]. *)
Lemma requests_carry_bearer_example :
  let w := world_answering (inr (respond 200 "OK" body_f1)) in
  let self := session (Some "secret") in
  let r := build_request (client self) GET "/v1/uploads/f1" [] [] in
  result (FileClient_init "https://files.example" (Some "secret") w) = inr self /\
  In r (requests (events (perform self (CallRetrieveFile "f1") w))) /\
  "secret" <> "" /\
  header "Authorization" r = Some "Bearer secret".
Proof.
  cbn zeta.
  assert (Hinit : result (FileClient_init "https://files.example" (Some "secret")
                            (world_answering (inr (respond 200 "OK" body_f1))))
                  = inr (session (Some "secret"))) by reflexivity.
  assert (Hin : In (build_request (client (session (Some "secret"))) GET
                      "/v1/uploads/f1" [] [])
                   (requests (events (perform (session (Some "secret"))
                      (CallRetrieveFile "f1")
                      (world_answering (inr (respond 200 "OK" body_f1)))))))
    by (left; reflexivity).
  assert (Hne : "secret" <> "") by discriminate.
  split; [exact Hinit | split; [exact Hin | split; [exact Hne |]]].
  exact (proj1 (requests_carry_bearer_of_nonempty_credential _ _ _ _ _ _ _ Hinit Hin)
               "secret" eq_refl Hne).
Defined.

(** C7 as stated fails: a client constructed with the credential [""] sends
    its requests without the header. *)
Lemma empty_credential_request_lacks_bearer :
  let w := world_answering (inr (respond 200 "OK" body_f1)) in
  exists self r,
    result (FileClient_init "https://files.example" (Some "") w) = inr self /\
    In r (requests (events (perform self (CallRetrieveFile "f1") w))) /\
    header "Authorization" r = None /\
    header "Authorization" r <> Some ("Bearer " ++ "").
Proof.
  cbn zeta. exists (session (Some "")).
  exists (build_request (client (session (Some ""))) GET "/v1/uploads/f1" [] []).
  split; [reflexivity | split; [left; reflexivity | split; [reflexivity | discriminate]]].
Qed.

(** C10, on an example. *)
Lemma empty_credential_example :
  let w := world_answering (inr (respond 200 "OK" body_f1)) in
  result (FileClient_init "https://files.example" (Some "") w) = inr (session (Some "")) /\
  (forall r, In r (requests (events (perform (session (Some ""))
                                       (CallDeleteFile "f1") w))) ->
     header "Authorization" r = None).
Proof.
  cbn zeta. split; [reflexivity |].
  intros r.
  exact (proj1 (empty_credential_sends_no_authorization
                  "https://files.example"
                  (world_answering (inr (respond 200 "OK" body_f1)))
                  (session (Some "")) eq_refl)
               (CallDeleteFile "f1") _ r).
Defined.

(** C8, on an example: a text file, and a name the table does not know. *)
Lemma upload_content_type_example :
  let w := world_answering (inr (respond 200 "OK" body_f1)) in
  w_files w "/tmp/report.txt" = Some (list_byte_of_string "hello") /\
  map file_content_types
      (requests (events (upload_file (session None) "/tmp/report.txt" "u1"
                           "assistants" None w))) = [["text/plain"]] /\
  fst (guess_type "blob.xyz") = None /\
  map file_content_types
      (requests (events (upload_file_object (session None) (list_byte_of_string "hello")
                           "blob.xyz" "u1" "assistants" None w)))
  = [["application/octet-stream"]].
Proof.
  cbn zeta.
  destruct (upload_content_type_is_guessed_or_octet_stream
              (session None) "/tmp/report.txt" (list_byte_of_string "hello") "blob.xyz"
              "u1" "assistants" None
              (world_answering (inr (respond 200 "OK" body_f1))))
    as [_ [Hpath [Hstream [Hnone _]]]].
  split; [reflexivity | split; [| split; [reflexivity |]]].
  - exact (Hpath _ eq_refl).
  - rewrite Hstream, (Hnone "blob.xyz" eq_refl). reflexivity.
Defined.

End Examples.

(** ** Every operation, on every path *)

Section Calls.
Context `{Ext : Externals}.

#[local] Arguments String.append : simpl never.

(** Unfolds a call down to the answers it depends on. *)
Ltac call_run :=
  unfold perform, upload_file, upload_file_object, retrieve_file, delete_file,
         download_file_as_object, get_signed_url, get_file_as_base64, with_open,
         raise_for_status, response_json, FileResponse_model_validate, py_get,
         validated_handlers, plain_handlers, log_info, log_error;
  cbn;
  unfold io_bind, io_catch, io_ret, io_raise, after, emit,
         client_get, client_delete, client_post, send;
  cbn.

(** Splits on the next answer the run is waiting for. *)
Ltac call_case :=
  match goal with
  | |- context [match w_files ?w ?p with _ => _ end] =>
      destruct (w_files w p) eqn:?; cbn
  | |- context [match w_server ?w ?r with _ => _ end] =>
      let e := fresh "e" in destruct (w_server w r) as [e | ?] eqn:?; [destruct e |]; cbn
  | |- context [if is_success ?r then _ else _] =>
      destruct (is_success r) eqn:?; cbn
  | |- context [match json_loads ?c with _ => _ end] =>
      destruct (json_loads c) eqn:?; cbn
  | |- context [match model_validate ?d with _ => _ end] =>
      destruct (model_validate d) as [[? ?] | ?] eqn:?; cbn
  | |- context [match ?d with JNull => _ | _ => _ end] =>
      destruct d; cbn
  end.

Ltac call_cases := repeat call_case.

Lemma perform_requests_exact self call w :
  requests (events (perform self call w)) =
  match call_request self call w with Some req => [req] | None => [] end.
Proof.
  destruct call; unfold call_request, upload_request; call_run; call_cases; reflexivity.
Qed.

(** Reads the request of a call off [call_request]. *)
Ltac call_request_of Hreq :=
  cbn in Hreq; unfold upload_request in Hreq;
  try match type of Hreq with
      | context [w_files ?w ?p] => destruct (w_files w p) eqn:?; [| discriminate Hreq]
      end;
  injection Hreq as <-.

Ltac call_with H := rewrite ?H; cbn.

(** Runs a call up to the answer of the server, opening the file first when
    the call is an upload by path. *)
Ltac call_start :=
  call_run;
  try match goal with
      | H : w_files _ _ = Some _ |- _ => rewrite H; cbn
      end.

(** X1. Every call hands the transport exactly the request of
    [call_request], once, whatever the answer is (no second attempt after a
    failure); an upload by path whose file cannot be opened sends nothing. *)
Theorem perform_sends_its_request_once self call w :
  requests (events (perform self call w)) =
  match call_request self call w with Some req => [req] | None => [] end.
Proof. apply perform_requests_exact. Qed.

(** X2. Whatever the operation, a response with a status outside 200..299
    makes the call raise the HTTP status failure built for that response;
    the body is neither decoded nor validated, and one error record is
    logged, with the text of the failure. *)
Theorem perform_non_2xx_raises_status_error self call w req resp :
  call_request self call w = Some req ->
  w_server w req = inr resp ->
  (status_code resp < 200 \/ 299 < status_code resp)%Z ->
  let r := perform self call w in
  raised r = Some (HTTPStatusError (status_message resp) resp) /\
  decodings (events r) = [] /\
  validations (events r) = [] /\
  map snd (error_logs (events r)) = [[JString (status_message resp)]].
Proof.
  intros Hreq Hs Hst. apply is_success_false in Hst.
  destruct call; call_request_of Hreq; unfold raised; call_start;
    call_with Hs; call_with Hst; repeat split.
Qed.

(** X3. Whatever the operation, an exception of the transport (no response)
    other than the model's validation error reaches the caller as it is;
    nothing is decoded or validated, and one error record is logged, with
    the text of the exception. *)
Theorem perform_transport_failure_propagates self call w req e :
  call_request self call w = Some req ->
  w_server w req = inl e ->
  (forall s j, e <> ValidationError s j) ->
  let r := perform self call w in
  raised r = Some e /\
  decodings (events r) = [] /\
  validations (events r) = [] /\
  map snd (error_logs (events r)) = [[JString (exn_str e)]].
Proof.
  intros Hreq Hs Hne.
  destruct call; call_request_of Hreq; unfold raised; call_start; call_with Hs;
    (destruct e; [exfalso; eapply Hne; reflexivity | ..]); repeat split.
Qed.


(** X5. For the two uploads and [retrieve_file], a 2xx response whose body
    decodes to a value the model accepts makes the call return that model;
    the value validated is the decoded body, and no error record is
    logged. *)
Theorem perform_valid_body_returns_model self call w req resp data v :
  returns_model call = true ->
  call_request self call w = Some req ->
  w_server w req = inr resp ->
  (200 <= status_code resp <= 299)%Z ->
  json_loads (content resp) = inr data ->
  model_validate data = inr v ->
  let r := perform self call w in
  returned r = Some (VFileResponse v) /\
  validations (events r) = [data] /\
  error_logs (events r) = [].
Proof.
  intros Hm Hreq Hs Hok Hj Hv. apply is_success_true in Hok.
  destruct call; try discriminate Hm; call_request_of Hreq; unfold returned; call_start;
    call_with Hs; call_with Hok; call_with Hj; call_with Hv; repeat split.
Qed.

(** X6. For the two uploads and [retrieve_file] alike, a 2xx response whose
    body decodes to a value the model rejects makes the call raise
    [ValueError] with the text of the model's error, and the one error
    record logged carries the JSON form of that error. *)
Theorem perform_invalid_body_raises_value_error self call w req resp data s j :
  returns_model call = true ->
  call_request self call w = Some req ->
  w_server w req = inr resp ->
  (200 <= status_code resp <= 299)%Z ->
  json_loads (content resp) = inr data ->
  model_validate data = inl (s, j) ->
  let r := perform self call w in
  raised r = Some (ValueError ("Validation error: " ++ s)) /\
  error_logs (events r) = [("Validation error: %s", [JString j])].
Proof.
  intros Hm Hreq Hs Hok Hj Hv. apply is_success_true in Hok.
  destruct call; try discriminate Hm; call_request_of Hreq; unfold raised; call_start;
    call_with Hs; call_with Hok; call_with Hj; call_with Hv; repeat split.
Qed.

(** X7. The two uploads and [retrieve_file] never let the model's own
    validation error through: on no path does the call raise it. *)
Theorem validating_calls_never_raise_model_error self call w s j :
  returns_model call = true ->
  raised (perform self call w) <> Some (ValidationError s j).
Proof.
  intros Hm.
  destruct call; try discriminate Hm; unfold raised; call_start; call_cases; discriminate.
Qed.


(** X9. An upload by path and an upload by stream of the same bytes under
    the base name of the path, with the same user and purpose, send the same
    request and end the same way (same result, same validation, same error
    record), provided the MIME table gives the path and its base name the
    same type. *)
Theorem upload_by_path_matches_upload_by_stream
    self file_path user_id purpose metadata metadata' w bytes :
  w_files w file_path = Some bytes ->
  or_default (fst (guess_type file_path)) "application/octet-stream" =
  or_default (fst (guess_type (basename file_path))) "application/octet-stream" ->
  let by_path := upload_file self file_path user_id purpose metadata w in
  let by_stream :=
    upload_file_object self bytes (basename file_path) user_id purpose metadata' w in
  result by_path = result by_stream /\
  requests (events by_path) = requests (events by_stream) /\
  validations (events by_path) = validations (events by_stream) /\
  error_logs (events by_path) = error_logs (events by_stream).
Proof.
  intros Hfile Hmime. call_run. call_with Hfile. rewrite Hmime.
  call_cases; repeat split.
Qed.

(** *** The filename of an upload by path *)

Lemma contains_slash_cons c s :
  contains_slash (String c s) = Ascii.eqb "/"%char c || contains_slash s.
Proof. reflexivity. Qed.

Lemma basename_without_slash p : contains_slash p = false -> basename p = p.
Proof.
  destruct p as [| c rest]; [reflexivity |].
  rewrite contains_slash_cons. intros H. apply orb_false_elim in H.
  destruct H as [Hc Hrest]. cbn [basename]. rewrite Hrest.
  rewrite Ascii.eqb_sym, Hc. reflexivity.
Qed.

Lemma basename_has_no_slash p : contains_slash (basename p) = false.
Proof.
  induction p as [| c rest IH]; [reflexivity |].
  cbn [basename]. destruct (contains_slash rest) eqn:Hrest; [exact IH |].
  destruct (Ascii.eqb c "/"%char) eqn:Hc; [exact Hrest |].
  rewrite contains_slash_cons, Ascii.eqb_sym, Hc, Hrest. reflexivity.
Qed.

Lemma contains_slash_after dir name : contains_slash (dir ++ "/" ++ name) = true.
Proof.
  induction dir as [| c dir IH].
  - reflexivity.
  - change (String c dir ++ "/" ++ name) with (String c (dir ++ "/" ++ name)).
    rewrite contains_slash_cons, IH. apply orb_true_r.
Qed.

Lemma basename_of_join dir name :
  contains_slash name = false -> basename (dir ++ "/" ++ name) = name.
Proof.
  intros Hname. induction dir as [| c dir IH].
  - change ("" ++ "/" ++ name) with (String "/"%char name).
    cbn [basename]. rewrite Hname. reflexivity.
  - change (String c dir ++ "/" ++ name) with (String c (dir ++ "/" ++ name)).
    cbn [basename]. rewrite contains_slash_after. exact IH.
Qed.

Lemma upload_file_requests_exact self file_path user_id purpose metadata w :
  requests (events (upload_file self file_path user_id purpose metadata w)) =
  match w_files w file_path with
  | Some bytes =>
      [upload_request self (basename file_path) bytes
         (or_default (fst (guess_type file_path)) "application/octet-stream")
         user_id purpose]
  | None => []
  end.
Proof. unfold upload_request. call_run. call_cases; reflexivity. Qed.

(** X10. The filename an upload by path sends is the last component of the
    path: it never contains a slash, it is the text after the last slash of
    a path that has one, and the path itself when it has none. *)
Theorem upload_file_sends_last_component self file_path user_id purpose metadata w r :
  In r (requests (events (upload_file self file_path user_id purpose metadata w))) ->
  part_filenames r = [basename file_path] /\
  contains_slash (basename file_path) = false /\
  (forall dir name, file_path = dir ++ "/" ++ name -> contains_slash name = false ->
     part_filenames r = [name]) /\
  (contains_slash file_path = false -> part_filenames r = [file_path]).
Proof.
  intros Hin. rewrite upload_file_requests_exact in Hin.
  destruct (w_files w file_path) as [bytes |]; [| contradiction].
  destruct Hin as [<- | []].
  assert (Hname : part_filenames
            (upload_request self (basename file_path) bytes
               (or_default (fst (guess_type file_path)) "application/octet-stream")
               user_id purpose) = [basename file_path]) by reflexivity.
  rewrite Hname. split; [reflexivity | split; [apply basename_has_no_slash | split]].
  - intros dir name -> Hno. rewrite basename_of_join by exact Hno. reflexivity.
  - intros Hno. rewrite basename_without_slash by exact Hno. reflexivity.
Qed.

(** *** What every call logs, keeps and leaves alone *)

(** X11. Every call logs exactly one error record when it raises and none
    when it returns, whatever the operation and whatever the file system,
    the server and the model do. *)
Theorem perform_logs_one_error_iff_raises self call w :
  let r := perform self call w in
  length (error_logs (events r)) = match raised r with Some _ => 1 | None => 0 end.
Proof.
  destruct call; unfold raised; call_run; call_cases; reflexivity.
Qed.

(** X12. The operations that do not return a model ([delete_file], the
    download and the two extractions) never validate the body, on any path;
    the download does not decode it either. *)
Theorem plain_calls_never_validate self call w :
  returns_model call = false ->
  validations (events (perform self call w)) = [] /\
  (reads_json call = false -> decodings (events (perform self call w)) = []).
Proof.
  intros Hm.
  destruct call; try discriminate Hm; call_run; call_cases;
    (split; [reflexivity | intros Hj; first [discriminate Hj | reflexivity]]).
Qed.

(** X13. No call leaves a handle behind: the handles open after a call are
    those open before it and the handles released are those acquired; a
    call other than the upload by path acquires none. *)
Theorem perform_keeps_handles self call w :
  let r := perform self call w in
  w_open (world r) = w_open w /\
  closed (events r) = opened (events r) /\
  ((forall file_path user_id purpose metadata,
      call <> CallUploadFile file_path user_id purpose metadata) ->
   opened (events r) = []).
Proof.
  destruct call; call_run; call_cases;
    (split; [first [reflexivity | apply release_fresh]
            | split; [reflexivity
                     | intros Hne; first [reflexivity | exfalso; eapply Hne; reflexivity]]]).
Qed.

(** X14. For the two extractions, a 2xx response whose body decodes to
    anything but a JSON object makes the call raise [AttributeError] naming
    the Python type of the value; the failure is of the unexpected kind and
    is logged once. *)
Theorem extraction_from_non_object_raises self call w req resp data field :
  extracted_field call = Some field ->
  call_request self call w = Some req ->
  w_server w req = inr resp ->
  (200 <= status_code resp <= 299)%Z ->
  json_loads (content resp) = inr data ->
  (forall items, data <> JObject items) ->
  let r := perform self call w in
  let e := AttributeError ("'" ++ type_name data ++ "' object has no attribute 'get'") in
  raised r = Some e /\
  error_kind e = KUnexpected /\
  map snd (error_logs (events r)) = [[JString (exn_str e)]].
Proof.
  intros Hf Hreq Hs Hok Hj Hobj. apply is_success_true in Hok.
  destruct call; try discriminate Hf; call_request_of Hreq; unfold raised; call_start;
    call_with Hs; call_with Hok; call_with Hj;
    (destruct data; [.. | exfalso; eapply Hobj; reflexivity]); repeat split.
Qed.


(** X16. In an upload by path of a file that can be opened, the request is
    sent while the handle is open, once, and the handle is released before
    an error record is written: of the events that acquire or release a
    handle, send a request or log an error, the call emits the acquisition,
    the request, the release and then the error records, in this order. *)
Theorem upload_file_sends_while_open self file_path user_id purpose metadata w bytes :
  w_files w file_path = Some bytes ->
  let r := upload_file self file_path user_id purpose metadata w in
  let h := fresh_handle (w_open w) in
  filter outward (events r) =
  ([EvOpen h file_path;
   EvSend (upload_request self (basename file_path) bytes
             (or_default (fst (guess_type file_path)) "application/octet-stream")
             user_id purpose);
   EvClose h]
   ++ map (fun entry => EvLog ERROR (fst entry) (snd entry))
          (error_logs (events r)))%list.
Proof.
  intros Hfile. unfold upload_request. call_run. call_with Hfile.
  call_cases; reflexivity.
Qed.

End Calls.

(** ** Every operation on the test double *)

Section CallExamples.
Import Sample.

(** X2, on an example: the server is unavailable for a deletion. *)
Lemma delete_file_unavailable_example :
  let resp := respond 503 "Service Unavailable" "" in
  let w := world_answering (inr resp) in
  let self := session (Some "secret") in
  call_request self (CallDeleteFile "f1") w =
    Some (build_request (client self) DELETE "/v1/uploads/f1" [] []) /\
  (299 < status_code resp)%Z /\
  raised (perform self (CallDeleteFile "f1") w) =
    Some (HTTPStatusError (status_message resp) resp).
Proof.
  cbn zeta. split; [reflexivity | split; [cbn; lia |]].
  refine (proj1 (perform_non_2xx_raises_status_error
                   (session (Some "secret")) (CallDeleteFile "f1")
                   (world_answering (inr (respond 503 "Service Unavailable" "")))
                   _ (respond 503 "Service Unavailable" "") eq_refl eq_refl _)).
  right; cbn; lia.
Defined.

(** X3, on an example: the connection is refused for a download. *)
Lemma download_connection_refused_example :
  let e := RequestError "All connection attempts failed" in
  let w := world_answering (inl e) in
  let self := session None in
  call_request self (CallDownloadFileAsObject "f1") w =
    Some (build_request (client self) GET "/v1/uploads/f1/object" [] []) /\
  (forall s j, e <> ValidationError s j) /\
  raised (perform self (CallDownloadFileAsObject "f1") w) = Some e.
Proof.
  cbn zeta.
  assert (Hne : forall s j, RequestError "All connection attempts failed"
                            <> ValidationError s j) by (intros s j; discriminate).
  split; [reflexivity | split; [exact Hne |]].
  exact (proj1 (perform_transport_failure_propagates
                  (session None) (CallDownloadFileAsObject "f1")
                  (world_answering (inl (RequestError "All connection attempts failed")))
                  _ _ eq_refl eq_refl Hne)).
Defined.


(** X5, on an example: an upload by stream that the server records. *)
Lemma upload_file_object_valid_example :
  let resp := respond 200 "OK" body_f1 in
  let w := world_answering (inr resp) in
  let call := CallUploadFileObject (list_byte_of_string "hello") "report.txt" "u1"
                                   "assistants" None in
  returns_model call = true /\
  (200 <= status_code resp <= 299)%Z /\
  json_loads (content resp) = inr record_f1 /\
  returned (perform (session None) call w) =
    Some (VFileResponse
            {| id := "f1"; purpose := "assistants"; user_id := "u1";
               filename := "report.txt"; mime_type := "text/plain"; size := 5;
               created_at := 1700000000; metadata := None |}).
Proof.
  cbn zeta. split; [reflexivity | split; [cbn; lia | split; [reflexivity |]]].
  refine (proj1 (perform_valid_body_returns_model
                   (session None)
                   (CallUploadFileObject (list_byte_of_string "hello") "report.txt" "u1"
                                         "assistants" None)
                   (world_answering (inr (respond 200 "OK" body_f1)))
                   _ (respond 200 "OK" body_f1) record_f1 _
                   eq_refl eq_refl eq_refl _ eq_refl eq_refl)).
  cbn; lia.
Defined.

(** X6, on an example: an upload by path answered with an incomplete
    record. *)
Lemma upload_file_invalid_body_example :
  let resp := respond 200 "OK" body_only_id in
  let w := world_answering (inr resp) in
  let call := CallUploadFile "/tmp/report.txt" "u1" "assistants" None in
  returns_model call = true /\
  (200 <= status_code resp <= 299)%Z /\
  raised (perform (session None) call w) =
    Some (ValueError ("Validation error: "
                      ++ "1 validation error for FileResponse: purpose: Field required")).
Proof.
  cbn zeta. split; [reflexivity | split; [cbn; lia |]].
  refine (proj1 (perform_invalid_body_raises_value_error
                   (session None)
                   (CallUploadFile "/tmp/report.txt" "u1" "assistants" None)
                   (world_answering (inr (respond 200 "OK" body_only_id)))
                   _ (respond 200 "OK" body_only_id) (JObject [("id", JString "f1")]) _ _
                   eq_refl eq_refl eq_refl _ eq_refl eq_refl)).
  cbn; lia.
Defined.

(** X7, on an example. *)
Lemma retrieve_file_never_raises_model_error_example :
  returns_model (CallRetrieveFile "f1") = true /\
  raised (perform (session None) (CallRetrieveFile "f1")
            (world_answering (inr (respond 200 "OK" body_only_id))))
  <> Some (ValidationError "purpose: Field required" "[]").
Proof.
  split; [reflexivity |].
  exact (validating_calls_never_raise_model_error
           (session None) (CallRetrieveFile "f1")
           (world_answering (inr (respond 200 "OK" body_only_id)))
           "purpose: Field required" "[]" eq_refl).
Defined.


(** X9, on an example: the same five bytes by path and by stream. *)
Lemma upload_by_path_and_by_stream_example :
  let w := world_answering (inr (respond 200 "OK" body_f1)) in
  w_files w "/tmp/report.txt" = Some (list_byte_of_string "hello") /\
  basename "/tmp/report.txt" = "report.txt" /\
  result (upload_file (session None) "/tmp/report.txt" "u1" "assistants" None w) =
  result (upload_file_object (session None) (list_byte_of_string "hello")
            (basename "/tmp/report.txt") "u1" "assistants"
            (Some [("origin", JString "stream")]) w).
Proof.
  cbn zeta. split; [reflexivity | split; [reflexivity |]].
  exact (proj1 (upload_by_path_matches_upload_by_stream
                  (session None) "/tmp/report.txt" "u1" "assistants" None
                  (Some [("origin", JString "stream")])
                  (world_answering (inr (respond 200 "OK" body_f1)))
                  (list_byte_of_string "hello") eq_refl eq_refl)).
Defined.

(** X10, on an example: the directory of the path is not sent. *)
Lemma upload_file_filename_example :
  let w := world_answering (inr (respond 200 "OK" body_f1)) in
  let r := upload_request (session None) "report.txt" (list_byte_of_string "hello")
             "text/plain" "u1" "assistants" in
  In r (requests (events (upload_file (session None) "/tmp/report.txt" "u1"
                            "assistants" None w))) /\
  contains_slash "report.txt" = false /\
  part_filenames r = ["report.txt"].
Proof.
  cbn zeta.
  assert (Hin : In (upload_request (session None) "report.txt"
                      (list_byte_of_string "hello") "text/plain" "u1" "assistants")
                   (requests (events (upload_file (session None) "/tmp/report.txt" "u1"
                      "assistants" None
                      (world_answering (inr (respond 200 "OK" body_f1)))))))
    by (left; reflexivity).
  split; [exact Hin | split; [reflexivity |]].
  exact (proj1 (proj2 (proj2 (upload_file_sends_last_component _ _ _ _ _ _ _ Hin)))
               "/tmp" "report.txt" eq_refl eq_refl).
Defined.

(** X12, on an example: a deletion. *)
Lemma delete_file_never_validates_example :
  returns_model (CallDeleteFile "f1") = false /\
  validations (events (perform (session None) (CallDeleteFile "f1")
                         (world_answering (inr (respond 200 "OK" body_f1))))) = [].
Proof.
  split; [reflexivity |].
  exact (proj1 (plain_calls_never_validate
                  (session None) (CallDeleteFile "f1")
                  (world_answering (inr (respond 200 "OK" body_f1))) eq_refl)).
Defined.

(** X13, on an example: a retrieval acquires no handle. *)
Lemma retrieve_file_acquires_no_handle_example :
  (forall file_path user_id purpose metadata,
     CallRetrieveFile "f1" <> CallUploadFile file_path user_id purpose metadata) /\
  opened (events (perform (session None) (CallRetrieveFile "f1")
                    (world_answering (inr (respond 200 "OK" body_f1))))) = [].
Proof.
  assert (Hne : forall file_path user_id purpose metadata,
            CallRetrieveFile "f1" <> CallUploadFile file_path user_id purpose metadata)
    by (intros; discriminate).
  split; [exact Hne |].
  exact (proj2 (proj2 (perform_keeps_handles
                         (session None) (CallRetrieveFile "f1")
                         (world_answering (inr (respond 200 "OK" body_f1))))) Hne).
Defined.

(** X14, on an example: an array where the base64 object was expected. *)
Lemma get_file_as_base64_array_body_example :
  let resp := respond 200 "OK" "[]" in
  let w := world_answering (inr resp) in
  extracted_field (CallGetFileAsBase64 "f1") = Some "base64" /\
  (200 <= status_code resp <= 299)%Z /\
  json_loads (content resp) = inr (JArray []) /\
  (forall items, JArray [] <> JObject items) /\
  raised (perform (session None) (CallGetFileAsBase64 "f1") w) =
    Some (AttributeError "'list' object has no attribute 'get'").
Proof.
  cbn zeta.
  assert (Hobj : forall items, JArray [] <> JObject items) by (intros; discriminate).
  split; [reflexivity | split; [cbn; lia | split; [reflexivity | split; [exact Hobj |]]]].
  refine (proj1 (extraction_from_non_object_raises
                   (session None) (CallGetFileAsBase64 "f1")
                   (world_answering (inr (respond 200 "OK" "[]")))
                   _ (respond 200 "OK" "[]") (JArray []) "base64"
                   eq_refl eq_refl eq_refl _ eq_refl Hobj)).
  cbn; lia.
Defined.


(** X16, on an example: the server refuses the upload. *)
Lemma upload_file_sends_while_open_example :
  let w := world_answering (inr (respond 500 "Internal Server Error" "")) in
  let r := upload_file (session None) "/tmp/report.txt" "u1" "assistants" None w in
  w_files w "/tmp/report.txt" = Some (list_byte_of_string "hello") /\
  map (fun ev => match ev with
                 | EvOpen _ _ => "open" | EvSend _ => "send" | EvClose _ => "close"
                 | _ => "log"
                 end) (filter outward (events r)) = ["open"; "send"; "close"; "log"].
Proof.
  cbn zeta. split; [reflexivity |].
  rewrite (upload_file_sends_while_open (session None) "/tmp/report.txt" "u1"
             "assistants" None
             (world_answering (inr (respond 500 "Internal Server Error" "")))
             (list_byte_of_string "hello") eq_refl).
  reflexivity.
Defined.

End CallExamples.
